(** * Payroll processing engine: a shallow embedding of the Mongoose models
      and the payroll controller, and the properties of the specification.

    Sources embedded here:
    - [models/Employee.js]  (salary configuration, [grossSalary] virtual)
    - [models/Payroll.js]   (schema, unique index, [pre('save')] function,
                             [getTotalPayroll], [markAsPaid])
    - [controllers/payrollController.js]
                            ([processPayroll], [updatePayroll], [markAsPaid])

    Modelling conventions.
    - A JavaScript number that the code computes with is an integer amount
      [Z]; a value that may be [undefined] or [NaN] is an [option Z] with
      [None] for "not a number".  The month and year of a request are
      numbers, or absent.
    - A stored Payroll document has every numeric schema path defined (each
      path is either required or has a schema default), so its numeric part
      is a total map from schema paths to [Z].  Paths that the controller
      never reads or writes (bank details, salary slip, approver, notes,
      comments, timestamps) are left out.
    - A collection is the list of its documents in insertion order.
    - The current time ([new Date()], [Date.now]) is an explicit argument.
    - The database itself does not fail: the outer [catch] of a controller
      function (answer 500) is reached only by an error of a write.

    What the model takes from Mongoose.
    - [doc.save()] (and so [Model.create]) validates the document first:
      validation is the built-in [pre('save')] hook and runs before every
      [pre('save')] function of a schema.  Then the functions of the schema
      run, then the document is written.
    - [Model.findByIdAndUpdate] is a query: it runs the update validators
      when asked to ([runValidators]), and no [pre('save')] function.
    - A unique index makes the collection reject a write that would give
      two documents the same key. *)

From Stdlib Require Import ZArith List String Ascii Bool Lia.
From Stdlib Require Import DecimalString DecimalZ Permutation Sorted.
Import ListNotations.
Local Open Scope Z_scope.

Definition ObjectId := Z.

(* ------------------------------------------------------------------ *)
(** ** JavaScript calendar dates: [new Date(year, monthIndex, day)]     *)
(* ------------------------------------------------------------------ *)

Module JsDate.

(** Local calendar components of a [Date]: full year, month index
    (0 = January) and day of the month. *)
Record t := mk { fullYear : Z; monthIndex : Z; date : Z }.

Definition isLeap (y : Z) : bool :=
  (y mod 4 =? 0) && (negb (y mod 100 =? 0) || (y mod 400 =? 0)).

Definition daysInMonth (y mi : Z) : Z :=
  match mi with
  | 0 => 31 | 1 => if isLeap y then 29 else 28 | 2 => 31 | 3 => 30
  | 4 => 31 | 5 => 30 | 6 => 31 | 7 => 31 | 8 => 30 | 9 => 31
  | 10 => 30 | _ => 31
  end.

Definition nextDay (d : t) : t :=
  if date d <? daysInMonth (fullYear d) (monthIndex d)
  then mk (fullYear d) (monthIndex d) (date d + 1)
  else if monthIndex d =? 11 then mk (fullYear d + 1) 0 1
       else mk (fullYear d) (monthIndex d + 1) 1.

Definition prevDay (d : t) : t :=
  if 1 <? date d
  then mk (fullYear d) (monthIndex d) (date d - 1)
  else if monthIndex d =? 0 then mk (fullYear d - 1) 11 31
       else mk (fullYear d) (monthIndex d - 1)
               (daysInMonth (fullYear d) (monthIndex d - 1)).

(** [new Date(year, monthIndex, day)]: a year in 0..99 means 1900 + year;
    the month index overflows into the year; the day counts from the first
    of that month, forwards or backwards (day 0 is the last day of the
    month before). *)
Definition toFullYear (year : Z) : Z :=
  if (0 <=? year) && (year <=? 99) then 1900 + year else year.

Definition make (year mi day : Z) : t :=
  let yr := toFullYear year in
  let first := mk (yr + mi / 12) (mi mod 12) 1 in
  if 1 <=? day
  then Nat.iter (Z.to_nat (day - 1)) nextDay first
  else Nat.iter (Z.to_nat (1 - day)) prevDay first.

End JsDate.

(* ------------------------------------------------------------------ *)
(** ** models/Employee.js                                               *)
(* ------------------------------------------------------------------ *)

Module Employee.

Inductive Status := Active | Inactive | Terminated | OnLeave.

(** [salary.basic] is required and has no default: a document that lacks
    it reads [undefined].  [hra] and [allowances] default to 0. *)
Record Salary := { basic : option Z; hra : Z; allowances : Z }.

Record Deductions :=
  { tax : Z; providentFund : Z; insurance : Z; other : Z }.

Record t :=
  { _id : ObjectId;
    employeeId : string;
    status : Status;
    salary : Salary;
    deductions : Deductions }.

Definition isActive (e : t) : bool :=
  match status e with Active => true | _ => false end.

(** JavaScript [+] on a possibly undefined operand gives [NaN]. *)
Definition plus (a b : option Z) : option Z :=
  match a, b with
  | Some x, Some y => Some (x + y)
  | _, _ => None
  end.

(** [employeeSchema.virtual('grossSalary')] *)
Definition grossSalary (this : t) : option Z :=
  plus (plus (basic (salary this)) (Some (hra (salary this))))
       (Some (allowances (salary this))).

(** [Employee.find({ status: 'Active' })] *)
Definition findActive (employees : list t) : list t :=
  filter isActive employees.

(** [employeeSchema.virtual('totalDeductions')] *)
Definition totalDeductions (this : t) : Z :=
  tax (deductions this) + providentFund (deductions this)
  + insurance (deductions this) + other (deductions this).

(** [employeeSchema.virtual('netSalary')] *)
Definition netSalary (this : t) : option Z :=
  plus (grossSalary this) (Some (- totalDeductions this)).

(** [String(n)] for an integer [n] (below 10^21 in magnitude, where
    JavaScript prints all the digits). *)
Definition numToString (n : Z) : string :=
  NilEmpty.string_of_int (Z.to_int n).

Fixpoint repeatChar (c : ascii) (n : nat) : string :=
  match n with
  | O => EmptyString
  | S n => String c (repeatChar c n)
  end.

(** [s.padStart(targetLength, c)] for a one-character filler. *)
Definition padStart (targetLength : nat) (c : ascii) (s : string) : string :=
  append (repeatChar c (targetLength - String.length s)) s.

(** The body of [employeeSchema.pre('save')]: a new document without
    [employeeId] (undefined or empty, both falsy) gets one made of the
    number of documents in the collection.  [count] is the result of
    [countDocuments()]. *)
Definition preSave (isNew : bool) (count : nat) (this : t) : t :=
  if isNew && (String.eqb (employeeId this) EmptyString)
  then {| _id := _id this;
          employeeId :=
            append "EMP" (padStart 5 "0" (numToString (Z.of_nat count + 1)));
          status := status this;
          salary := salary this;
          deductions := deductions this |}
  else this.

End Employee.

(* ------------------------------------------------------------------ *)
(** ** models/Payroll.js: schema                                        *)
(* ------------------------------------------------------------------ *)

Module Payroll.

(** The numeric paths of [payrollSchema]. *)
Inductive Path :=
| month | year
| workingDays | daysPresent | daysAbsent
| leaves_casual | leaves_sick | leaves_paid | leaves_unpaid
| holidays
| earnings_basicSalary | earnings_hra | earnings_allowances
| earnings_bonuses | earnings_incentives
| earnings_overtime_hours | earnings_overtime_rate
| earnings_overtime_amount
| earnings_arrears | earnings_other
| deductions_tax | deductions_providentFund
| deductions_employeeStateInsurance | deductions_professionalTax
| deductions_insurance | deductions_loan | deductions_advance
| deductions_lateDeduction | deductions_other
| reimbursements_travel | reimbursements_medical | reimbursements_food
| reimbursements_communication | reimbursements_other
| grossSalary | totalEarnings | totalDeductions | totalReimbursements
| netSalary.

Scheme Equality for Path.

Definition allPaths : list Path :=
  [ month; year; workingDays; daysPresent; daysAbsent;
    leaves_casual; leaves_sick; leaves_paid; leaves_unpaid; holidays;
    earnings_basicSalary; earnings_hra; earnings_allowances;
    earnings_bonuses; earnings_incentives;
    earnings_overtime_hours; earnings_overtime_rate;
    earnings_overtime_amount; earnings_arrears; earnings_other;
    deductions_tax; deductions_providentFund;
    deductions_employeeStateInsurance; deductions_professionalTax;
    deductions_insurance; deductions_loan; deductions_advance;
    deductions_lateDeduction; deductions_other;
    reimbursements_travel; reimbursements_medical; reimbursements_food;
    reimbursements_communication; reimbursements_other;
    grossSalary; totalEarnings; totalDeductions; totalReimbursements;
    netSalary ].

(** [required: ...] of each path. *)
Definition schemaRequired (p : Path) : bool :=
  match p with
  | month | year | workingDays | daysPresent
  | earnings_basicSalary
  | grossSalary | totalEarnings | totalDeductions | netSalary => true
  | _ => false
  end.

(** [default: ...] of each path. *)
Definition schemaDefault (p : Path) : option Z :=
  match p with
  | month | year | earnings_basicSalary
  | grossSalary | totalEarnings | totalDeductions | netSalary => None
  | workingDays | daysPresent => Some 30
  | _ => Some 0
  end.

(** [min: 1, max: 12] on [month]. *)
Definition schemaMin (p : Path) : option Z :=
  match p with month => Some 1 | _ => None end.
Definition schemaMax (p : Path) : option Z :=
  match p with month => Some 12 | _ => None end.

Inductive PaymentStatus := Pending | Processing | Paid | Failed | OnHold.
Inductive PaymentMethod := BankTransfer | Check | Cash | UPI.
Inductive ApprovalStatus :=
  ApprovalPending | Approved | Rejected.

(** A Payroll document. *)
Record t :=
  { _id : ObjectId;
    employee : ObjectId;
    payPeriodStart : JsDate.t;
    payPeriodEnd : JsDate.t;
    num : Path -> Z;
    paymentStatus : PaymentStatus;
    paymentMethod : PaymentMethod;
    paymentDate : option Z;
    transactionId : option string;
    approvalStatus : ApprovalStatus;
    processedBy : ObjectId;
    processedAt : Z }.

(** Assignment [this.p = v] to a numeric path. *)
Definition set (p : Path) (v : Z) (this : t) : t :=
  {| _id := _id this;
     employee := employee this;
     payPeriodStart := payPeriodStart this;
     payPeriodEnd := payPeriodEnd this;
     num := fun q => if Path_beq q p then v else num this q;
     paymentStatus := paymentStatus this;
     paymentMethod := paymentMethod this;
     paymentDate := paymentDate this;
     transactionId := transactionId this;
     approvalStatus := approvalStatus this;
     processedBy := processedBy this;
     processedAt := processedAt this |}.

Notation "d .[ p ]" := (num d p)
  (at level 1, left associativity, format "d .[ p ]").

(** [payrollSchema.pre('save', function(next) { ... })] *)
Definition preSave (this : t) : t :=
  (* Calculate total earnings *)
  let this := set totalEarnings
    (this.[earnings_basicSalary] +
     this.[earnings_hra] +
     this.[earnings_allowances] +
     this.[earnings_bonuses] +
     this.[earnings_incentives] +
     this.[earnings_overtime_amount] +
     this.[earnings_arrears] +
     this.[earnings_other]) this in
  (* Calculate total deductions *)
  let this := set totalDeductions
    (this.[deductions_tax] +
     this.[deductions_providentFund] +
     this.[deductions_employeeStateInsurance] +
     this.[deductions_professionalTax] +
     this.[deductions_insurance] +
     this.[deductions_loan] +
     this.[deductions_advance] +
     this.[deductions_lateDeduction] +
     this.[deductions_other]) this in
  (* Calculate total reimbursements *)
  let this := set totalReimbursements
    (this.[reimbursements_travel] +
     this.[reimbursements_medical] +
     this.[reimbursements_food] +
     this.[reimbursements_communication] +
     this.[reimbursements_other]) this in
  (* Calculate net salary *)
  let this := set netSalary
    (this.[totalEarnings] - this.[totalDeductions]
     + this.[totalReimbursements]) this in
  (* Ensure net salary is not negative *)
  set netSalary (Z.max 0 this.[netSalary]) this.

(** The key of the compound unique index
    [payrollSchema.index({ employee: 1, month: 1, year: 1 }, { unique: true })]. *)
Definition indexKey (d : t) : ObjectId * Z * Z :=
  (employee d, d.[month], d.[year]).

Definition months : list string :=
  [ "Jan"; "Feb"; "Mar"; "Apr"; "May"; "Jun";
    "Jul"; "Aug"; "Sep"; "Oct"; "Nov"; "Dec" ]%string.

(** [months[i]] inside a template literal: an index outside the array
    reads [undefined], which prints as "undefined". *)
Definition monthName (i : Z) : string :=
  if i <? 0 then "undefined"%string
  else match nth_error months (Z.to_nat i) with
       | Some name => name
       | None => "undefined"%string
       end.

(** [payrollSchema.virtual('periodDescription')] *)
Definition periodDescription (this : t) : string :=
  append (monthName (this.[month] - 1))
         (append " " (Employee.numToString this.[year])).

(** [payrollSchema.methods.getSalarySlipFilename], on a document whose
    [employee] is populated; [employeeId] is [this.employee.employeeId]. *)
Definition getSalarySlipFilename (this : t) (employeeId : string) : string :=
  append "salary_slip_"
    (append employeeId
       (append "_"
          (append (Employee.numToString this.[month])
             (append "_"
                (append (Employee.numToString this.[year]) ".pdf"))))).

End Payroll.

Notation "d .[ p ]" := (Payroll.num d p)
  (at level 1, left associativity, format "d .[ p ]").

(* ------------------------------------------------------------------ *)
(** ** Mongoose: documents, validation, queries and writes of the
       Payroll model                                                    *)
(* ------------------------------------------------------------------ *)

(** The plain object given to [new Payroll(obj)] / [Payroll.create(obj)]:
    an object literal, its numeric keys as a list of bindings (a key that
    is not listed is absent; a bound value may be [undefined]/[NaN]). *)
Module Obj.
Record t :=
  { employee : ObjectId;
    payPeriodStart : JsDate.t;
    payPeriodEnd : JsDate.t;
    processedBy : ObjectId;
    numbers : list (Payroll.Path * option Z) }.

Fixpoint get (p : Payroll.Path) (kv : list (Payroll.Path * option Z))
  : option Z :=
  match kv with
  | [] => None
  | (q, v) :: rest => if Payroll.Path_beq q p then v else get p rest
  end.
End Obj.

(** The object [getTotalPayroll] returns. *)
Module Totals.
Record t :=
  { totalGross : Z; totalEarnings : Z; totalDeductions : Z;
    totalNet : Z; count : Z }.
End Totals.

Module Model.
Import Payroll.

Definition Collection := list Payroll.t.

Inductive ValidatorError :=
| Required (p : Path) | Min (p : Path) | Max (p : Path).

Inductive Error :=
| ValidationError (errors : list ValidatorError)
| DuplicateKey.

(** The validators of one path: [required] fails on a missing value,
    [min]/[max] on a value out of range. *)
Definition validatePath (p : Path) (v : option Z) : list ValidatorError :=
  match v with
  | None => if schemaRequired p then [Required p] else []
  | Some z =>
      (match schemaMin p with
       | Some lo => if z <? lo then [Min p] else []
       | None => [] end) ++
      (match schemaMax p with
       | Some hi => if hi <? z then [Max p] else []
       | None => [] end)
  end.

Definition validate (values : Path -> option Z) : list ValidatorError :=
  flat_map (fun p => validatePath p (values p)) allPaths.

(** [new Payroll(obj)]: the value of each numeric path is the one the
    object gives, or else the schema default, or else undefined (an absent
    key and a key bound to [undefined] are the same here). *)
Definition construct (obj : Obj.t) (p : Path) : option Z :=
  match Obj.get p (Obj.numbers obj) with
  | Some v => Some v
  | None => schemaDefault p
  end.

(** A new [_id]: one that no document of the collection has. *)
Definition freshId (coll : Collection) : ObjectId :=
  1 + fold_right (fun d acc => Z.max (_id d) acc) 0 coll.

(** The document of [new Payroll(obj)] with the defaults of the paths
    that are not numbers.  It is built from values that passed validation,
    where every numeric path is defined. *)
Definition newDocument (id : ObjectId) (obj : Obj.t)
    (values : Path -> option Z) (now : Z) : Payroll.t :=
  {| _id := id;
     employee := Obj.employee obj;
     payPeriodStart := Obj.payPeriodStart obj;
     payPeriodEnd := Obj.payPeriodEnd obj;
     num := fun p => match values p with Some v => v | None => 0 end;
     paymentStatus := Pending;
     paymentMethod := BankTransfer;
     paymentDate := None;
     transactionId := None;
     approvalStatus := ApprovalPending;
     processedBy := Obj.processedBy obj;
     processedAt := now |}.

Definition keyEqb (a b : ObjectId * Z * Z) : bool :=
  let '(e1, m1, y1) := a in
  let '(e2, m2, y2) := b in
  (e1 =? e2) && (m1 =? m2) && (y1 =? y2).

(** Insertion into the collection; the unique indexes on [_id] and on
    (employee, month, year) reject a duplicate (E11000). *)
Definition insertOne (doc : Payroll.t) (coll : Collection)
  : Error + Collection :=
  if existsb (fun d => (_id d =? _id doc)
                       || keyEqb (indexKey d) (indexKey doc)) coll
  then inl DuplicateKey
  else inr (coll ++ [doc]).

Fixpoint replace (doc : Payroll.t) (coll : Collection) : Collection :=
  match coll with
  | [] => []
  | d :: rest =>
      if _id d =? _id doc then doc :: rest else d :: replace doc rest
  end.

(** Writing a changed document back under its [_id]; the unique index
    rejects it when another document already holds its key. *)
Definition updateOne (doc : Payroll.t) (coll : Collection)
  : Error + Collection :=
  if existsb (fun d => negb (_id d =? _id doc)
                       && keyEqb (indexKey d) (indexKey doc)) coll
  then inl DuplicateKey
  else inr (replace doc coll).

(** [Payroll.create(obj)], that is [new Payroll(obj).save()].
    Mongoose registers its validation as the first [pre('save')] hook,
    so the document is validated before the schema's own
    [pre('save')] function runs; only then is it inserted. *)
Definition create (obj : Obj.t) (now : Z) (coll : Collection)
  : Collection * (Error + Payroll.t) :=
  let values := construct obj in
  match validate values with
  | [] =>
      let doc := preSave (newDocument (freshId coll) obj values now) in
      match insertOne doc coll with
      | inr coll' => (coll', inr doc)
      | inl e => (coll, inl e)
      end
  | errs => (coll, inl (ValidationError errs))
  end.

(** [doc.save()] on a document loaded from the collection: validation
    of its paths, then the [pre('save')] function, then the write. *)
Definition save (doc : Payroll.t) (coll : Collection)
  : Collection * (Error + Payroll.t) :=
  match validate (fun p => Some doc.[p]) with
  | [] =>
      let doc := preSave doc in
      match updateOne doc coll with
      | inr coll' => (coll', inr doc)
      | inl e => (coll, inl e)
      end
  | errs => (coll, inl (ValidationError errs))
  end.

(** [Payroll.findById(id)] *)
Definition findById (id : ObjectId) (coll : Collection) : option Payroll.t :=
  find (fun d => _id d =? id) coll.

(** [Payroll.findOne({ month, year })] *)
Definition findOne (m y : Z) (coll : Collection) : option Payroll.t :=
  find (fun d => (d.[month] =? m) && (d.[year] =? y)) coll.

Definition setEmployee (e : ObjectId) (this : Payroll.t) : Payroll.t :=
  {| _id := _id this;
     employee := e;
     payPeriodStart := payPeriodStart this;
     payPeriodEnd := payPeriodEnd this;
     num := num this;
     paymentStatus := paymentStatus this;
     paymentMethod := paymentMethod this;
     paymentDate := paymentDate this;
     transactionId := transactionId this;
     approvalStatus := approvalStatus this;
     processedBy := processedBy this;
     processedAt := processedAt this |}.

Definition setPayment (s : PaymentStatus) (date : option Z)
    (txn : option string) (this : Payroll.t) : Payroll.t :=
  {| _id := _id this;
     employee := employee this;
     payPeriodStart := payPeriodStart this;
     payPeriodEnd := payPeriodEnd this;
     num := num this;
     paymentStatus := s;
     paymentMethod := paymentMethod this;
     paymentDate := date;
     transactionId := txn;
     approvalStatus := approvalStatus this;
     processedBy := processedBy this;
     processedAt := processedAt this |}.

(** One key of an update object ([req.body] of [PUT /api/payroll/:id]). *)
Inductive Assign :=
| SetNum (p : Path) (v : Z)
| SetEmployee (e : ObjectId)
| SetPaymentStatus (s : PaymentStatus)
| SetTransactionId (txn : string).

Definition assign (this : Payroll.t) (a : Assign) : Payroll.t :=
  match a with
  | SetNum p v => set p v this
  | SetEmployee e => setEmployee e this
  | SetPaymentStatus s =>
      setPayment s (paymentDate this) (transactionId this) this
  | SetTransactionId txn =>
      setPayment (paymentStatus this) (paymentDate this) (Some txn) this
  end.

(** Update validators ([runValidators: true]) run on the paths the
    update sets. *)
Definition validateUpdate (body : list Assign) : list ValidatorError :=
  flat_map (fun a => match a with
                     | SetNum p v => validatePath p (Some v)
                     | _ => []
                     end) body.

(** [Payroll.findByIdAndUpdate(id, body, { new: true, runValidators: true })]:
    the update is sent to the collection as it is; it is a query, not a
    [save()], and no [pre('save')] function runs. *)
Definition findByIdAndUpdate (id : ObjectId) (body : list Assign)
    (coll : Collection) : Collection * (Error + option Payroll.t) :=
  match findById id coll with
  | None => (coll, inr None)
  | Some doc =>
      match validateUpdate body with
      | [] =>
          let doc' := fold_left assign body doc in
          match updateOne doc' coll with
          | inr coll' => (coll', inr (Some doc'))
          | inl e => (coll, inl e)
          end
      | errs => (coll, inl (ValidationError errs))
      end
  end.

Definition sum (f : Payroll.t -> Z) (docs : list Payroll.t) : Z :=
  fold_right (fun d acc => f d + acc) 0 docs.

(** [$match: { month, year, paymentStatus: { $ne: 'Failed' } }] *)
Definition matchStage (m y : Z) (d : Payroll.t) : bool :=
  (d.[month] =? m) && (d.[year] =? y) &&
  match paymentStatus d with Failed => false | _ => true end.

(** [$group: { _id: null, ... }]: one group over all the documents that
    reach the stage, and no group at all when none does. *)
Definition groupStage (docs : list Payroll.t) : list Totals.t :=
  match docs with
  | [] => []
  | _ => [ {| Totals.totalGross := sum (fun d => d.[grossSalary]) docs;
              Totals.totalEarnings := sum (fun d => d.[totalEarnings]) docs;
              Totals.totalDeductions := sum (fun d => d.[totalDeductions]) docs;
              Totals.totalNet := sum (fun d => d.[netSalary]) docs;
              Totals.count := sum (fun _ => 1) docs |} ]
  end.

(** [payrollSchema.statics.getTotalPayroll] *)
Definition getTotalPayroll (m y : Z) (coll : Collection) : Totals.t :=
  let result := groupStage (filter (matchStage m y) coll) in
  match result with
  | r :: _ => r
  | [] => {| Totals.totalGross := 0; Totals.totalEarnings := 0;
             Totals.totalDeductions := 0; Totals.totalNet := 0;
             Totals.count := 0 |}
  end.

(** [payrollSchema.methods.markAsPaid] *)
Definition markAsPaid (this : Payroll.t) (txn : option string) (now : Z)
    (coll : Collection) : Collection * (Error + Payroll.t) :=
  let this := setPayment Paid (Some now) txn this in
  save this coll.

(** The order of [.sort('-year -month')]: [a] comes before [b] when its
    year is greater, or the years are equal and its month is greater. *)
Definition before (a b : Payroll.t) : bool :=
  (b.[year] <? a.[year])
  || ((a.[year] =? b.[year]) && (b.[month] <? a.[month])).

Fixpoint insertSorted (d : Payroll.t) (docs : list Payroll.t)
  : list Payroll.t :=
  match docs with
  | [] => [d]
  | x :: rest =>
      if before x d then x :: insertSorted d rest else d :: docs
  end.

(** [.sort('-year -month')] *)
Definition sortNewestFirst (docs : list Payroll.t) : list Payroll.t :=
  fold_right insertSorted [] docs.

(** [.limit(n)]: 0 is no limit, and a negative limit counts as its
    absolute value. *)
Definition limit (n : Z) (docs : list Payroll.t) : list Payroll.t :=
  if n =? 0 then docs else firstn (Z.to_nat (Z.abs n)) docs.

(** [payrollSchema.statics.getEmployeeHistory = function(employeeId,
    limit = 12)]; [None] is a call without the second argument. *)
Definition getEmployeeHistory (employeeId : ObjectId) (n : option Z)
    (coll : Collection) : list Payroll.t :=
  let n := match n with Some n => n | None => 12 end in
  limit n
    (sortNewestFirst (filter (fun d => employee d =? employeeId) coll)).

End Model.

(* ------------------------------------------------------------------ *)
(** ** controllers/payrollController.js                                 *)
(* ------------------------------------------------------------------ *)

Module payrollController.
Import Payroll.

Inductive Message :=
| ProvideMonthYear               (* 'Please provide month and year' *)
| AlreadyProcessed (m y : Z)     (* `Payroll for ${month}/${year} already processed` *)
| RecordNotFound.                (* 'Payroll record not found' *)

(** [res.status(code).json(...)] *)
Inductive Response (A : Type) :=
| Status200 (data : A)
| Status201 (data : A)
| Status400 (message : Message)
| Status404 (message : Message)
| Status500 (error : Model.Error).
Arguments Status200 {A}.
Arguments Status201 {A}.
Arguments Status400 {A}.
Arguments Status404 {A}.
Arguments Status500 {A}.

(** The [data] of the response of [processPayroll]; an entry of [errors]
    is [{ employee: employee.employeeId, error: err.message }]. *)
Record Summary :=
  { processed : nat;
    failed : nat;
    errors : list (string * Model.Error) }.

(** A value of [req.body] read as a condition: absent and 0 are falsy. *)
Definition truthy (v : option Z) : option Z :=
  match v with
  | Some z => if z =? 0 then None else Some z
  | None => None
  end.

(** The object literal [payrollData] built for one employee. *)
Definition payrollData (employee : Employee.t) (month year : Z)
    (userId : ObjectId) : Obj.t :=
  let startDate := JsDate.make year (month - 1) 1 in
  let endDate := JsDate.make year month 0 in
  {| Obj.employee := Employee._id employee;
     Obj.payPeriodStart := startDate;
     Obj.payPeriodEnd := endDate;
     Obj.processedBy := userId;
     Obj.numbers :=
       [ (Payroll.month, Some month);
         (Payroll.year, Some year);
         (workingDays, Some 30);
         (daysPresent, Some 30);
         (daysAbsent, Some 0);
         (leaves_casual, Some 0);
         (leaves_sick, Some 0);
         (leaves_paid, Some 0);
         (leaves_unpaid, Some 0);
         (earnings_basicSalary, Employee.basic (Employee.salary employee));
         (earnings_hra, Some (Employee.hra (Employee.salary employee)));
         (earnings_allowances,
            Some (Employee.allowances (Employee.salary employee)));
         (earnings_bonuses, Some 0);
         (earnings_incentives, Some 0);
         (earnings_overtime_hours, Some 0);
         (earnings_overtime_rate, Some 0);
         (earnings_overtime_amount, Some 0);
         (earnings_arrears, Some 0);
         (earnings_other, Some 0);
         (deductions_tax, Some (Employee.tax (Employee.deductions employee)));
         (deductions_providentFund,
            Some (Employee.providentFund (Employee.deductions employee)));
         (deductions_employeeStateInsurance, Some 0);
         (deductions_professionalTax, Some 0);
         (deductions_insurance,
            Some (Employee.insurance (Employee.deductions employee)));
         (deductions_loan, Some 0);
         (deductions_advance, Some 0);
         (deductions_lateDeduction, Some 0);
         (deductions_other,
            Some (Employee.other (Employee.deductions employee)));
         (reimbursements_travel, Some 0);
         (reimbursements_medical, Some 0);
         (reimbursements_food, Some 0);
         (reimbursements_communication, Some 0);
         (reimbursements_other, Some 0);
         (grossSalary, Employee.grossSalary employee) ] |}.

(** The state of the loop of [processPayroll]: the collection, and the
    arrays [payrolls] and [errors]. *)
Definition LoopState : Type :=
  Model.Collection * list Payroll.t * list (string * Model.Error).

(** One iteration: [try { ... Payroll.create(payrollData) ... push }
    catch (err) { errors.push(...) }]. *)
Definition processEmployee (month year : Z) (userId : ObjectId) (now : Z)
    (st : LoopState) (employee : Employee.t) : LoopState :=
  let '(coll, payrolls, errors) := st in
  match Model.create (payrollData employee month year userId) now coll with
  | (coll', inr payroll) => (coll', payrolls ++ [payroll], errors)
  | (coll', inl err) =>
      (coll', payrolls, errors ++ [(Employee.employeeId employee, err)])
  end.

(** [exports.processPayroll] *)
Definition processPayroll (month year : option Z) (userId : ObjectId)
    (now : Z) (allEmployees : list Employee.t) (coll : Model.Collection)
  : Model.Collection * Response Summary :=
  match truthy month, truthy year with
  | Some m, Some y =>
      (* Check if payroll already processed *)
      match Model.findOne m y coll with
      | Some existing => (coll, Status400 (AlreadyProcessed m y))
      | None =>
          (* Get all active employees *)
          let employees := Employee.findActive allEmployees in
          (* Process payroll for each employee *)
          let '(coll', payrolls, errors) :=
            fold_left (processEmployee m y userId now)
                      employees (coll, [], []) in
          (coll', Status201 {| processed := List.length payrolls;
                               failed := List.length errors;
                               errors := errors |})
      end
  | _, _ => (coll, Status400 ProvideMonthYear)
  end.

(** [exports.getPayroll] *)
Definition getPayroll (id : ObjectId) (coll : Model.Collection)
  : Response Payroll.t :=
  match Model.findById id coll with
  | None => Status404 RecordNotFound
  | Some payroll => Status200 payroll
  end.

(** [exports.updatePayroll] *)
Definition updatePayroll (id : ObjectId) (body : list Model.Assign)
    (coll : Model.Collection)
  : Model.Collection * Response (option Payroll.t) :=
  match Model.findById id coll with
  | None => (coll, Status404 RecordNotFound)
  | Some _ =>
      match Model.findByIdAndUpdate id body coll with
      | (coll', inr payroll) => (coll', Status200 payroll)
      | (coll', inl error) => (coll', Status500 error)
      end
  end.

(** [exports.markAsPaid] *)
Definition markAsPaid (id : ObjectId) (transactionId : option string)
    (now : Z) (coll : Model.Collection)
  : Model.Collection * Response Payroll.t :=
  match Model.findById id coll with
  | None => (coll, Status404 RecordNotFound)
  | Some payroll =>
      match Model.markAsPaid payroll transactionId now coll with
      | (coll', inr payroll) => (coll', Status200 payroll)
      | (coll', inl error) => (coll', Status500 error)
      end
  end.

End payrollController.

(* ------------------------------------------------------------------ *)
(** ** Properties of the specification, as predicates on documents and
       collections                                                      *)
(* ------------------------------------------------------------------ *)

Module Spec.
Import Payroll.

(** The sums of the components, as the specification writes them. *)
Definition sumEarnings (d : Payroll.t) : Z :=
  d.[earnings_basicSalary] + d.[earnings_hra] + d.[earnings_allowances]
  + d.[earnings_bonuses] + d.[earnings_incentives]
  + d.[earnings_overtime_amount] + d.[earnings_arrears] + d.[earnings_other].

Definition sumDeductions (d : Payroll.t) : Z :=
  d.[deductions_tax] + d.[deductions_providentFund]
  + d.[deductions_employeeStateInsurance] + d.[deductions_professionalTax]
  + d.[deductions_insurance] + d.[deductions_loan] + d.[deductions_advance]
  + d.[deductions_lateDeduction] + d.[deductions_other].

Definition sumReimbursements (d : Payroll.t) : Z :=
  d.[reimbursements_travel] + d.[reimbursements_medical]
  + d.[reimbursements_food] + d.[reimbursements_communication]
  + d.[reimbursements_other].

(** The totals invariant of a record. *)
Definition totalsConsistent (d : Payroll.t) : Prop :=
  d.[totalEarnings] = sumEarnings d /\
  d.[totalDeductions] = sumDeductions d /\
  d.[totalReimbursements] = sumReimbursements d /\
  d.[netSalary] =
    Z.max 0 (d.[totalEarnings] - d.[totalDeductions] + d.[totalReimbursements]).

(** The fixed-component gross of a record. *)
Definition grossConsistent (d : Payroll.t) : Prop :=
  d.[grossSalary] =
    d.[earnings_basicSalary] + d.[earnings_hra] + d.[earnings_allowances].

(** The unique indexes of the collection hold. *)
Definition indexesHold (coll : Model.Collection) : Prop :=
  NoDup (map Payroll._id coll) /\ NoDup (map indexKey coll).

(** A document passes the validators of the schema. *)
Definition schemaValid (d : Payroll.t) : Prop :=
  Model.validate (fun p => Some d.[p]) = [].

(** The collections that writes through the storage layer and the
    operations of the controller can produce from the empty collection. *)
Inductive reachable : Model.Collection -> Prop :=
| reach_empty : reachable []
| reach_insertOne doc coll coll' :
    reachable coll -> Model.insertOne doc coll = inr coll' -> reachable coll'
| reach_updateOne doc coll coll' :
    reachable coll -> Model.updateOne doc coll = inr coll' -> reachable coll'
| reach_create obj now coll :
    reachable coll -> reachable (fst (Model.create obj now coll))
| reach_processPayroll month year userId now employees coll :
    reachable coll ->
    reachable (fst (payrollController.processPayroll
                      month year userId now employees coll))
| reach_updatePayroll id body coll :
    reachable coll ->
    reachable (fst (payrollController.updatePayroll id body coll))
| reach_markAsPaid id txn now coll :
    reachable coll ->
    reachable (fst (payrollController.markAsPaid id txn now coll)).

(** The aggregate of a list of documents, as the specification writes it. *)
Definition aggregateOf (docs : list Payroll.t) : Totals.t :=
  {| Totals.totalGross := Model.sum (fun d => d.[grossSalary]) docs;
     Totals.totalEarnings := Model.sum (fun d => d.[totalEarnings]) docs;
     Totals.totalDeductions := Model.sum (fun d => d.[totalDeductions]) docs;
     Totals.totalNet := Model.sum (fun d => d.[netSalary]) docs;
     Totals.count := Z.of_nat (List.length docs) |}.

Definition isFailed (s : PaymentStatus) : bool :=
  match s with Failed => true | _ => false end.

(** The sum of two aggregates, field by field. *)
Definition addTotals (a b : Totals.t) : Totals.t :=
  {| Totals.totalGross := Totals.totalGross a + Totals.totalGross b;
     Totals.totalEarnings := Totals.totalEarnings a + Totals.totalEarnings b;
     Totals.totalDeductions :=
       Totals.totalDeductions a + Totals.totalDeductions b;
     Totals.totalNet := Totals.totalNet a + Totals.totalNet b;
     Totals.count := Totals.count a + Totals.count b |}.

(** A record counts for the statistics of a period. *)
Definition countsFor (m y : Z) (d : Payroll.t) : Prop :=
  d.[month] = m /\ d.[year] = y /\ paymentStatus d <> Failed.

(** The four paths the [pre('save')] function writes. *)
Definition isTotalPath (p : Path) : bool :=
  match p with
  | totalEarnings | totalDeductions | totalReimbursements | netSalary => true
  | _ => false
  end.

(** An update object names the numeric path [p]. *)
Definition names (body : list Model.Assign) (p : Path) : Prop :=
  exists v, In (Model.SetNum p v) body.

(** Two documents differ at most in their numeric paths. *)
Definition sameOutsideNumbers (a b : Payroll.t) : Prop :=
  _id a = _id b /\ employee a = employee b /\
  payPeriodStart a = payPeriodStart b /\ payPeriodEnd a = payPeriodEnd b /\
  paymentMethod a = paymentMethod b /\
  approvalStatus a = approvalStatus b /\
  processedBy a = processedBy b /\ processedAt a = processedAt b.

(** The period of [a] is later than the period of [b]. *)
Definition laterPeriod (a b : Payroll.t) : Prop :=
  b.[year] < a.[year] \/ (a.[year] = b.[year] /\ b.[month] < a.[month]).

(** The period of [a] is not earlier than the period of [b]. *)
Definition notOlder (a b : Payroll.t) : Prop := ~ laterPeriod b a.

(** A calendar date that exists. *)
Definition calendarDate (d : JsDate.t) : Prop :=
  0 <= JsDate.monthIndex d <= 11 /\
  1 <= JsDate.date d
    <= JsDate.daysInMonth (JsDate.fullYear d) (JsDate.monthIndex d).

(** An integer that JavaScript prints with all its digits. *)
Definition printsInFull (n : Z) : Prop := Z.abs n < 10 ^ 21.

End Spec.

(* ------------------------------------------------------------------ *)
(** ** Concrete data used by the examples                               *)
(* ------------------------------------------------------------------ *)

Module Sample.
Import Payroll.

(** The employee of the example computation of the specification:
    basic 3000, hra 500, allowances 200, tax 300, providentFund 150,
    insurance 50. *)
Definition worker (id : ObjectId) (code : string) (basic : option Z)
  : Employee.t :=
  {| Employee._id := id;
     Employee.employeeId := code;
     Employee.status := Employee.Active;
     Employee.salary :=
       {| Employee.basic := basic; Employee.hra := 500;
          Employee.allowances := 200 |};
     Employee.deductions :=
       {| Employee.tax := 300; Employee.providentFund := 150;
          Employee.insurance := 50; Employee.other := 0 |} |}.

(** A stored record of that employee for March 2024, with the totals the
    [pre('save')] function computes. *)
Definition record (id : ObjectId) (emp : ObjectId) (s : PaymentStatus)
  : Payroll.t :=
  {| _id := id;
     employee := emp;
     payPeriodStart := JsDate.mk 2024 2 1;
     payPeriodEnd := JsDate.mk 2024 2 31;
     num := fun p =>
       match p with
       | month => 3 | year => 2024
       | workingDays => 30 | daysPresent => 30
       | earnings_basicSalary => 3000
       | earnings_hra => 500
       | earnings_allowances => 200
       | deductions_tax => 300
       | deductions_providentFund => 150
       | deductions_insurance => 50
       | grossSalary => 3700
       | totalEarnings => 3700
       | totalDeductions => 500
       | netSalary => 3200
       | _ => 0
       end;
     paymentStatus := s;
     paymentMethod := BankTransfer;
     paymentDate := None;
     transactionId := None;
     approvalStatus := ApprovalPending;
     processedBy := 7;
     processedAt := 1000 |}.

(** Ten active employees; the fourth has no basic salary. *)
Definition tenEmployees : list Employee.t :=
  [ worker 101 "EMP00001" (Some 3000);
    worker 102 "EMP00002" (Some 3000);
    worker 103 "EMP00003" (Some 3000);
    worker 104 "EMP00004" None;
    worker 105 "EMP00005" (Some 3000);
    worker 106 "EMP00006" (Some 3000);
    worker 107 "EMP00007" (Some 3000);
    worker 108 "EMP00008" (Some 3000);
    worker 109 "EMP00009" (Some 3000);
    worker 110 "EMP00010" (Some 3000) ].

(** A registry with one Active employee among others. *)
Definition withStatus (st : Employee.Status) (e : Employee.t) : Employee.t :=
  {| Employee._id := Employee._id e;
     Employee.employeeId := Employee.employeeId e;
     Employee.status := st;
     Employee.salary := Employee.salary e;
     Employee.deductions := Employee.deductions e |}.

Definition staff : list Employee.t :=
  [ withStatus Employee.Terminated (worker 201 "EMP00011" (Some 3000));
    worker 202 "EMP00012" (Some 3000);
    withStatus Employee.OnLeave (worker 203 "EMP00013" (Some 3000));
    withStatus Employee.Inactive (worker 204 "EMP00014" (Some 3000)) ].

(** Three records of employee 101 (January to March 2024) and one of
    employee 102, stored out of order. *)
Definition inMonth (m : Z) (d : Payroll.t) : Payroll.t := set month m d.

Definition ledger : list Payroll.t :=
  [ inMonth 2 (record 2 101 Paid);
    record 4 102 Pending;
    record 3 101 Pending;
    inMonth 1 (record 1 101 Failed) ].

End Sample.

(* ------------------------------------------------------------------ *)
(** ** Documents: assignment and the [pre('save')] function             *)
(* ------------------------------------------------------------------ *)

Import Payroll Model payrollController Spec.

Lemma Path_beq_refl (p : Path) : Path_beq p p = true.
Proof. destruct p; reflexivity. Qed.

Lemma Path_beq_true (p q : Path) : Path_beq p q = true -> p = q.
Proof. destruct p, q; intros H; (reflexivity || discriminate H). Qed.

Lemma num_set_same (p : Path) (v : Z) (d : Payroll.t) : (set p v d).[p] = v.
Proof. cbn. now rewrite Path_beq_refl. Qed.

Lemma num_set_other (p q : Path) (v : Z) (d : Payroll.t) :
  q <> p -> (set p v d).[q] = d.[q].
Proof.
  intros Hne. cbn. destruct (Path_beq q p) eqn:E; [|reflexivity].
  apply Path_beq_true in E. contradiction.
Qed.

(** The hook establishes the totals invariant on every document. *)
Lemma preSave_totalsConsistent (d : Payroll.t) : totalsConsistent (preSave d).
Proof.
  unfold totalsConsistent, sumEarnings, sumDeductions, sumReimbursements.
  cbn. repeat split; reflexivity.
Qed.

(** The hook writes the four totals and nothing else. *)
Lemma preSave_num (d : Payroll.t) (p : Path) :
  p <> totalEarnings -> p <> totalDeductions ->
  p <> totalReimbursements -> p <> netSalary ->
  (preSave d).[p] = d.[p].
Proof.
  intros H1 H2 H3 H4. destruct p; try reflexivity; contradiction.
Qed.

Lemma preSave_fields (d : Payroll.t) :
  _id (preSave d) = _id d /\ employee (preSave d) = employee d /\
  paymentStatus (preSave d) = paymentStatus d /\
  paymentDate (preSave d) = paymentDate d /\
  transactionId (preSave d) = transactionId d /\
  payPeriodEnd (preSave d) = payPeriodEnd d.
Proof. repeat split. Qed.

Lemma preSave_indexKey (d : Payroll.t) : indexKey (preSave d) = indexKey d.
Proof. reflexivity. Qed.

Lemma preSave_grossConsistent (d : Payroll.t) :
  grossConsistent d -> grossConsistent (preSave d).
Proof. unfold grossConsistent. cbn. auto. Qed.

(* ------------------------------------------------------------------ *)
(** ** The collection and its unique indexes                            *)
(* ------------------------------------------------------------------ *)

Lemma keyEqb_eq (a b : ObjectId * Z * Z) : keyEqb a b = true <-> a = b.
Proof.
  destruct a as [[e1 m1] y1], b as [[e2 m2] y2]. unfold keyEqb.
  rewrite !andb_true_iff, !Z.eqb_eq. split.
  - intros [[-> ->] ->]. reflexivity.
  - intros H. injection H as -> -> ->. auto.
Qed.

Lemma indexKey_eq (d1 d2 : Payroll.t) :
  indexKey d1 = indexKey d2 <->
  employee d1 = employee d2 /\ d1.[month] = d2.[month] /\ d1.[year] = d2.[year].
Proof.
  unfold indexKey. split.
  - intros H. injection H as -> -> ->. auto.
  - intros (-> & -> & ->). reflexivity.
Qed.

Lemma NoDup_snoc {A : Type} (l : list A) (x : A) :
  NoDup l -> ~ In x l -> NoDup (l ++ [x]).
Proof.
  induction l as [|a l IH]; intros Hnd Hnin; cbn.
  - constructor; [intros []|constructor].
  - inversion Hnd as [|? ? Ha Hl]; subst. constructor.
    + rewrite in_app_iff. intros [H|[H|[]]]; [contradiction|].
      subst. apply Hnin. now left.
    + apply IH; [assumption|]. intros H. apply Hnin. now right.
Qed.

Lemma NoDup_map_In_inj {A B : Type} (f : A -> B) (l : list A) (x y : A) :
  NoDup (map f l) -> In x l -> In y l -> f x = f y -> x = y.
Proof.
  induction l as [|a l IH]; cbn; intros Hnd Hx Hy Hf; [contradiction|].
  inversion Hnd as [|? ? Ha Hl]; subst.
  destruct Hx as [->|Hx], Hy as [->|Hy]; auto.
  - exfalso. apply Ha. rewrite Hf. now apply in_map.
  - exfalso. apply Ha. rewrite <- Hf. now apply in_map.
Qed.

(** What a successful insertion says. *)
Lemma insertOne_inr (doc : Payroll.t) (coll coll' : Collection) :
  insertOne doc coll = inr coll' ->
  coll' = coll ++ [doc] /\
  ~ In (_id doc) (map _id coll) /\
  ~ In (indexKey doc) (map indexKey coll).
Proof.
  unfold insertOne.
  destruct (existsb _ coll) eqn:E; [discriminate|].
  intros H. injection H as <-. split; [reflexivity|].
  assert (Hall : forall d, In d coll ->
            _id d <> _id doc /\ indexKey d <> indexKey doc).
  { intros d Hd.
    destruct ((_id d =? _id doc) || keyEqb (indexKey d) (indexKey doc)) eqn:Hb.
    - assert (existsb (fun d0 => (_id d0 =? _id doc)
                || keyEqb (indexKey d0) (indexKey doc)) coll = true)
        by (apply existsb_exists; exists d; auto).
      congruence.
    - apply orb_false_iff in Hb as [Hi Hk]. apply Z.eqb_neq in Hi.
      split; [assumption|]. intros Heq. apply keyEqb_eq in Heq. congruence. }
  split; intros Hin; apply in_map_iff in Hin; destruct Hin as (d & Hd & Hin);
    destruct (Hall d Hin); congruence.
Qed.

(** The unique index rejects a second document with a stored key. *)
Lemma insertOne_duplicate (doc d : Payroll.t) (coll : Collection) :
  In d coll -> indexKey d = indexKey doc ->
  insertOne doc coll = inl DuplicateKey.
Proof.
  intros Hin Hk. unfold insertOne.
  replace (existsb _ coll) with true; [reflexivity|].
  symmetry. apply existsb_exists. exists d. split; [assumption|].
  apply orb_true_iff. right. now apply keyEqb_eq.
Qed.

Lemma insertOne_indexesHold (doc : Payroll.t) (coll coll' : Collection) :
  indexesHold coll -> insertOne doc coll = inr coll' -> indexesHold coll'.
Proof.
  intros [Hid Hkey] H. apply insertOne_inr in H as (-> & Hi & Hk).
  unfold indexesHold. rewrite !map_app. cbn.
  split; apply NoDup_snoc; assumption.
Qed.

Lemma replace_ids (doc : Payroll.t) (coll : Collection) :
  map _id (replace doc coll) = map _id coll.
Proof.
  induction coll as [|d rest IH]; cbn; [reflexivity|].
  destruct (Z.eqb_spec (_id d) (_id doc)) as [E|E]; cbn.
  - now rewrite E.
  - now rewrite IH.
Qed.

Lemma In_replace (doc x : Payroll.t) (coll : Collection) :
  In x (replace doc coll) -> In x coll \/ x = doc.
Proof.
  induction coll as [|d rest IH]; cbn; [tauto|].
  destruct (_id d =? _id doc); cbn.
  - intros [<-|H]; auto.
  - intros [<-|H]; auto. destruct (IH H); auto.
Qed.

Lemma replace_keys (doc : Payroll.t) (coll : Collection) :
  NoDup (map _id coll) -> NoDup (map indexKey coll) ->
  existsb (fun d => negb (_id d =? _id doc)
                    && keyEqb (indexKey d) (indexKey doc)) coll = false ->
  NoDup (map indexKey (replace doc coll)).
Proof.
  induction coll as [|d rest IH]; cbn [existsb map replace];
    intros Hid Hkey Hex; [constructor|].
  apply orb_false_iff in Hex as [Hd Hrest].
  inversion Hid as [|? ? Hi Hid']; subst.
  inversion Hkey as [|? ? Hk Hkey']; subst.
  assert (Hother : forall r, In r rest -> _id r <> _id doc ->
                     indexKey r <> indexKey doc).
  { intros r Hr Hne Heq.
    assert (existsb (fun d0 => negb (_id d0 =? _id doc)
              && keyEqb (indexKey d0) (indexKey doc)) rest = true); [|congruence].
    apply existsb_exists. exists r. split; [assumption|].
    apply andb_true_iff. split; [|now apply keyEqb_eq].
    apply negb_true_iff. now apply Z.eqb_neq. }
  destruct (Z.eqb_spec (_id d) (_id doc)) as [E|E]; cbn [map].
  - constructor; [|assumption].
    intros Hin. apply in_map_iff in Hin as (r & Hr & Hin).
    apply (Hother r Hin); [|assumption].
    intros Heq. apply Hi. rewrite E, <- Heq. now apply in_map.
  - constructor; [|now apply IH].
    intros Hin. apply in_map_iff in Hin as (r & Hr & Hin).
    apply In_replace in Hin as [Hin| ->].
    + apply Hk. rewrite <- Hr. now apply in_map.
    + cbn [negb andb] in Hd.
      assert (keyEqb (indexKey d) (indexKey doc) = true)
        by (now apply keyEqb_eq). congruence.
Qed.

Lemma updateOne_indexesHold (doc : Payroll.t) (coll coll' : Collection) :
  indexesHold coll -> updateOne doc coll = inr coll' -> indexesHold coll'.
Proof.
  intros [Hid Hkey]. unfold updateOne.
  destruct (existsb _ coll) eqn:E; [discriminate|].
  intros H. injection H as <-. split.
  - now rewrite replace_ids.
  - now apply replace_keys.
Qed.

(** With the indexes in place, writing back a stored document whose key
    did not change is never rejected. *)
Lemma updateOne_same_key (doc d : Payroll.t) (coll : Collection) :
  indexesHold coll -> In d coll -> _id d = _id doc ->
  indexKey d = indexKey doc ->
  updateOne doc coll = inr (replace doc coll).
Proof.
  intros [Hid Hkey] Hin Hi Hk. unfold updateOne.
  destruct (existsb _ coll) eqn:E; [|reflexivity].
  apply existsb_exists in E as (r & Hr & E).
  apply andb_true_iff in E as [E1 E2].
  apply negb_true_iff, Z.eqb_neq in E1. apply keyEqb_eq in E2.
  assert (r = d) by (apply (NoDup_map_In_inj indexKey coll); congruence).
  subst r. contradiction.
Qed.

Lemma findById_In (id : ObjectId) (coll : Collection) (d : Payroll.t) :
  findById id coll = Some d -> In d coll /\ _id d = id.
Proof.
  unfold findById. intros H. apply find_some in H as [H1 H2].
  split; [assumption|]. now apply Z.eqb_eq.
Qed.

Lemma findById_replace (doc : Payroll.t) (coll : Collection) :
  In (_id doc) (map _id coll) ->
  findById (_id doc) (replace doc coll) = Some doc.
Proof.
  unfold findById.
  induction coll as [|d rest IH]; cbn; [contradiction|].
  destruct (Z.eqb_spec (_id d) (_id doc)) as [E|E]; cbn.
  - now rewrite Z.eqb_refl.
  - intros [H|H]; [contradiction|].
    destruct (Z.eqb_spec (_id d) (_id doc)); [contradiction|]. now apply IH.
Qed.

(* ------------------------------------------------------------------ *)
(** ** Writes of the model: [create], [save], [findByIdAndUpdate]       *)
(* ------------------------------------------------------------------ *)

(** A write either fails and leaves the collection as it was, or goes
    through the storage layer. *)
Lemma create_cases (obj : Obj.t) (now : Z) (coll : Collection) :
  (exists e, create obj now coll = (coll, inl e)) \/
  (exists doc coll', create obj now coll = (coll', inr doc) /\
     validate (construct obj) = [] /\
     doc = preSave (newDocument (freshId coll) obj (construct obj) now) /\
     insertOne doc coll = inr coll').
Proof.
  unfold create. destruct (validate (construct obj)) as [|v errs] eqn:E.
  - destruct (insertOne _ coll) as [e|coll'] eqn:I.
    + left. eauto.
    + right. eexists _, coll'. repeat split; eauto.
  - left. eauto.
Qed.

Lemma save_cases (doc : Payroll.t) (coll : Collection) :
  (exists e, save doc coll = (coll, inl e)) \/
  (exists coll', save doc coll = (coll', inr (preSave doc)) /\
     updateOne (preSave doc) coll = inr coll').
Proof.
  unfold save. destruct (validate _) as [|v errs].
  - destruct (updateOne _ coll) as [e|coll'] eqn:U; eauto.
  - eauto.
Qed.

Lemma findByIdAndUpdate_cases (id : ObjectId) (body : list Assign)
    (coll : Collection) :
  (exists r, findByIdAndUpdate id body coll = (coll, r)) \/
  (exists doc coll',
     findById id coll = Some doc /\
     findByIdAndUpdate id body coll
       = (coll', inr (Some (fold_left assign body doc))) /\
     updateOne (fold_left assign body doc) coll = inr coll').
Proof.
  unfold findByIdAndUpdate. destruct (findById id coll) as [doc|]; [|eauto].
  destruct (validateUpdate body); [|eauto].
  destruct (updateOne _ coll) as [e|coll'] eqn:U; [eauto|].
  right. eauto.
Qed.

Lemma create_indexesHold (obj : Obj.t) (now : Z) (coll : Collection) :
  indexesHold coll -> indexesHold (fst (create obj now coll)).
Proof.
  intros H. destruct (create_cases obj now coll)
    as [[e ->]|(doc & coll' & -> & _ & _ & I)]; cbn; [assumption|].
  eapply insertOne_indexesHold; eauto.
Qed.

Lemma save_indexesHold (doc : Payroll.t) (coll : Collection) :
  indexesHold coll -> indexesHold (fst (save doc coll)).
Proof.
  intros H. destruct (save_cases doc coll) as [[e ->]|(coll' & -> & U)];
    cbn; [assumption|].
  eapply updateOne_indexesHold; eauto.
Qed.

Lemma findByIdAndUpdate_indexesHold (id : ObjectId) (body : list Assign)
    (coll : Collection) :
  indexesHold coll -> indexesHold (fst (findByIdAndUpdate id body coll)).
Proof.
  intros H. destruct (findByIdAndUpdate_cases id body coll)
    as [[r ->]|(doc & coll' & _ & -> & U)]; cbn; [assumption|].
  eapply updateOne_indexesHold; eauto.
Qed.

(** The document [processPayroll] builds carries no [totalEarnings],
    [totalDeductions] or [netSalary]; these paths are required, and they
    are validated before the [pre('save')] function computes them. *)
Lemma payrollData_missing_totals (e : Employee.t) (m y : Z) (u : ObjectId) :
  In (Required totalEarnings) (validate (construct (payrollData e m y u))) /\
  In (Required totalDeductions) (validate (construct (payrollData e m y u))) /\
  In (Required netSalary) (validate (construct (payrollData e m y u))).
Proof.
  unfold validate. repeat split; apply in_flat_map.
  - exists totalEarnings. split; [cbn; tauto|now left].
  - exists totalDeductions. split; [cbn; tauto|now left].
  - exists netSalary. split; [cbn; tauto|now left].
Qed.

Lemma create_payrollData (e : Employee.t) (m y : Z) (u : ObjectId) (now : Z)
    (coll : Collection) :
  create (payrollData e m y u) now coll
  = (coll, inl (ValidationError (validate (construct (payrollData e m y u))))).
Proof.
  destruct (payrollData_missing_totals e m y u) as [H _].
  unfold create.
  destruct (validate (construct (payrollData e m y u))); [destruct H|].
  reflexivity.
Qed.

(** The loop of [processPayroll]: one error per employee, in order. *)
Lemma processPayroll_loop (m y : Z) (u : ObjectId) (now : Z)
    (employees : list Employee.t) (coll : Collection)
    (payrolls : list Payroll.t) (errs : list (string * Error)) :
  fold_left (processEmployee m y u now) employees (coll, payrolls, errs)
  = (coll, payrolls,
     errs ++ map (fun e => (Employee.employeeId e,
                            ValidationError
                              (validate (construct (payrollData e m y u)))))
                 employees).
Proof.
  revert errs. induction employees as [|e rest IH]; intros errs; cbn [fold_left map].
  - now rewrite app_nil_r.
  - unfold processEmployee at 2. rewrite create_payrollData.
    rewrite IH, <- app_assoc. reflexivity.
Qed.

(** [processPayroll] never changes the collection. *)
Lemma processPayroll_collection (month year : option Z) (u : ObjectId)
    (now : Z) (employees : list Employee.t) (coll : Collection) :
  fst (processPayroll month year u now employees coll) = coll.
Proof.
  unfold processPayroll.
  destruct (truthy month) as [m|]; [|reflexivity].
  destruct (truthy year) as [y|]; [|reflexivity].
  destruct (findOne m y coll); [reflexivity|].
  now rewrite processPayroll_loop.
Qed.

Lemma updatePayroll_indexesHold (id : ObjectId) (body : list Assign)
    (coll : Collection) :
  indexesHold coll -> indexesHold (fst (updatePayroll id body coll)).
Proof.
  intros H. unfold updatePayroll.
  destruct (findById id coll); [|assumption].
  pose proof (findByIdAndUpdate_indexesHold id body coll H) as H'.
  destruct (findByIdAndUpdate id body coll) as [coll' [e|r]]; exact H'.
Qed.

Lemma markAsPaid_indexesHold (id : ObjectId) (txn : option string) (now : Z)
    (coll : Collection) :
  indexesHold coll ->
  indexesHold (fst (payrollController.markAsPaid id txn now coll)).
Proof.
  intros H. unfold payrollController.markAsPaid.
  destruct (findById id coll) as [d|]; [|assumption].
  unfold Model.markAsPaid.
  pose proof (save_indexesHold (setPayment Paid (Some now) txn d) coll H) as H'.
  destruct (save _ coll) as [coll' [e|r]]; exact H'.
Qed.

Lemma reachable_indexesHold (coll : Collection) :
  reachable coll -> indexesHold coll.
Proof.
  induction 1.
  - split; constructor.
  - eapply insertOne_indexesHold; eauto.
  - eapply updateOne_indexesHold; eauto.
  - now apply create_indexesHold.
  - now rewrite processPayroll_collection.
  - now apply updatePayroll_indexesHold.
  - now apply markAsPaid_indexesHold.
Qed.

(** A stored document passes validation exactly when its month is in
    range: every other validator of the schema is [required], and every
    numeric path of a stored document is defined. *)
Lemma schemaValid_iff (d : Payroll.t) : schemaValid d <-> 1 <= d.[month] <= 12.
Proof.
  unfold schemaValid, validate. cbn.
  destruct (Z.ltb_spec d.[month] 1), (Z.ltb_spec 12 d.[month]); cbn;
    split; intros H'; try discriminate; try reflexivity; lia.
Qed.

(** [save] of a stored, valid document succeeds and writes it back with
    its totals recomputed. *)
Lemma save_stored (doc d : Payroll.t) (coll : Collection) :
  indexesHold coll -> In d coll -> _id d = _id doc ->
  indexKey d = indexKey doc -> schemaValid doc ->
  save doc coll = (replace (preSave doc) coll, inr (preSave doc)).
Proof.
  intros Hidx Hin Hid Hkey Hvalid. unfold save.
  unfold schemaValid in Hvalid. rewrite Hvalid.
  rewrite (updateOne_same_key (preSave doc) d coll); auto.
Qed.

(** The method [markAsPaid] on a stored, valid document. *)
Lemma markAsPaid_stored (id : ObjectId) (txn : option string) (now : Z)
    (coll : Collection) (d : Payroll.t) :
  indexesHold coll -> findById id coll = Some d -> schemaValid d ->
  let d' := preSave (setPayment Paid (Some now) txn d) in
  payrollController.markAsPaid id txn now coll
    = (replace d' coll, Status200 d') /\
  findById id (replace d' coll) = Some d'.
Proof.
  intros Hidx Hfind Hvalid d'.
  destruct (findById_In _ _ _ Hfind) as [Hin Hid].
  unfold payrollController.markAsPaid, Model.markAsPaid. rewrite Hfind.
  rewrite (save_stored _ d); auto.
  split; [reflexivity|].
  replace id with (_id d') by (subst d'; cbn; assumption).
  apply findById_replace. subst d'. cbn. now apply in_map.
Qed.

Lemma sum_count (docs : list Payroll.t) :
  sum (fun _ => 1) docs = Z.of_nat (List.length docs).
Proof.
  induction docs as [|d rest IH]; [reflexivity|].
  cbn [sum fold_right List.length]. fold (sum (fun _ => 1) rest).
  rewrite IH. lia.
Qed.

Lemma findOne_some (m y : Z) (coll : Collection) (d : Payroll.t) :
  In d coll -> d.[month] = m -> d.[year] = y ->
  exists d', findOne m y coll = Some d'.
Proof.
  intros Hin Hm Hy. unfold findOne.
  destruct (find _ coll) as [d'|] eqn:E; [eauto|].
  apply (find_none _ _ E) in Hin. cbn in Hin.
  rewrite Hm, Hy, !Z.eqb_refl in Hin. discriminate.
Qed.

(** The response of [processPayroll] for a period that passes both checks:
    no document is created, and every active employee is in [errors]. *)
Lemma processPayroll_summary (m y : Z) (u : ObjectId) (now : Z)
    (employees : list Employee.t) (coll : Collection) :
  m <> 0 -> y <> 0 -> findOne m y coll = None ->
  processPayroll (Some m) (Some y) u now employees coll
  = (coll,
     Status201
       {| processed := 0;
          failed := List.length (Employee.findActive employees);
          errors :=
            map (fun e => (Employee.employeeId e,
                           ValidationError
                             (validate (construct (payrollData e m y u)))))
                (Employee.findActive employees) |}).
Proof.
  intros Hm Hy Hnone. unfold processPayroll, truthy.
  apply Z.eqb_neq in Hm, Hy. rewrite Hm, Hy, Hnone.
  rewrite processPayroll_loop. cbn [app List.length].
  now rewrite length_map.
Qed.

(** The last day of a month, as [new Date(year, month, 0)] computes it. *)
Lemma make_day0 (year m : Z) :
  1 <= m <= 12 ->
  JsDate.make year m 0
  = JsDate.mk (JsDate.toFullYear year) (m - 1)
              (JsDate.daysInMonth (JsDate.toFullYear year) (m - 1)).
Proof.
  intros H.
  assert (Hm : m = 1 \/ m = 2 \/ m = 3 \/ m = 4 \/ m = 5 \/ m = 6 \/
               m = 7 \/ m = 8 \/ m = 9 \/ m = 10 \/ m = 11 \/ m = 12) by lia.
  unfold JsDate.make.
  change (1 <=? 0) with false. change (Z.to_nat (1 - 0)) with 1%nat.
  cbn [Nat.iter nat_rect].
  repeat (destruct Hm as [->|Hm]); try subst m;
    cbn; rewrite ?Z.add_0_r; try reflexivity.
  f_equal. lia.
Qed.

(** The first day of a month, as [new Date(year, month - 1, 1)] computes it. *)
Lemma make_day1 (year m : Z) :
  1 <= m <= 12 ->
  JsDate.make year (m - 1) 1 = JsDate.mk (JsDate.toFullYear year) (m - 1) 1.
Proof.
  intros H.
  assert (Hm : m = 1 \/ m = 2 \/ m = 3 \/ m = 4 \/ m = 5 \/ m = 6 \/
               m = 7 \/ m = 8 \/ m = 9 \/ m = 10 \/ m = 11 \/ m = 12) by lia.
  unfold JsDate.make.
  change (1 <=? 1) with true. change (Z.to_nat (1 - 1)) with 0%nat.
  cbn [Nat.iter nat_rect].
  repeat (destruct Hm as [->|Hm]); try subst m;
    cbn; rewrite ?Z.add_0_r; reflexivity.
Qed.

(** A document that passes validation has every required path. *)
Lemma validate_required (values : Path -> option Z) (p : Path) :
  validate values = [] -> schemaRequired p = true -> values p <> None.
Proof.
  intros Hv Hr Hnone.
  assert (Hin : In (Required p) (validate values)).
  { unfold validate. apply in_flat_map. exists p. split.
    - destruct p; cbn; tauto.
    - unfold validatePath. rewrite Hnone, Hr. now left. }
  rewrite Hv in Hin. destruct Hin.
Qed.

(** After validation every numeric path of the new document is defined:
    a path without schema default is required. *)
Lemma construct_defined (obj : Obj.t) (p : Path) :
  validate (construct obj) = [] -> exists v, construct obj p = Some v.
Proof.
  intros Hv. destruct (construct obj p) as [v|] eqn:E; [eauto|].
  exfalso. destruct (schemaRequired p) eqn:Hr.
  - now apply (validate_required _ p Hv Hr).
  - unfold construct in E. destruct (Obj.get p (Obj.numbers obj)); [discriminate|].
    destruct p; discriminate.
Qed.

(** A created document keeps the numbers it was given; only the four
    totals are written by the hook. *)
Lemma create_num (obj : Obj.t) (now : Z) (coll coll' : Collection)
    (doc : Payroll.t) (p : Path) :
  create obj now coll = (coll', inr doc) ->
  p <> totalEarnings -> p <> totalDeductions ->
  p <> totalReimbursements -> p <> netSalary ->
  construct obj p = Some doc.[p].
Proof.
  intros Hc H1 H2 H3 H4.
  destruct (create_cases obj now coll)
    as [[e He]|(doc0 & coll0 & He & Hv & Hd & _)]; rewrite He in Hc; [discriminate|].
  injection Hc as <- <-. subst doc0.
  rewrite preSave_num by assumption. cbn.
  destruct (construct_defined obj p Hv) as [v ->]. reflexivity.
Qed.

(** A created document has consistent totals and is in the collection. *)
Lemma create_fields (obj : Obj.t) (now : Z) (coll coll' : Collection)
    (doc : Payroll.t) :
  create obj now coll = (coll', inr doc) ->
  totalsConsistent doc /\ In doc coll' /\
  employee doc = Obj.employee obj /\
  payPeriodEnd doc = Obj.payPeriodEnd obj /\
  paymentStatus doc = Pending /\ approvalStatus doc = ApprovalPending.
Proof.
  intros Hc.
  destruct (create_cases obj now coll)
    as [[e He]|(doc0 & coll0 & He & Hv & Hd & Hi)]; rewrite He in Hc; [discriminate|].
  injection Hc as <- <-. apply insertOne_inr in Hi as (-> & _).
  subst doc0. split; [apply preSave_totalsConsistent|].
  split; [apply in_or_app; right; now left|]. repeat split.
Qed.

(* ------------------------------------------------------------------ *)
(** ** Writes through the model keep the documents valid                *)
(* ------------------------------------------------------------------ *)

Lemma validatePath_month (v : Z) :
  validatePath month (Some v) = [] <-> 1 <= v <= 12.
Proof.
  cbn. destruct (Z.ltb_spec v 1), (Z.ltb_spec 12 v); cbn;
    split; intros H'; try discriminate; try reflexivity; lia.
Qed.

Lemma replace_Forall (P : Payroll.t -> Prop) (doc : Payroll.t)
    (coll : Collection) :
  Forall P coll -> P doc -> Forall P (replace doc coll).
Proof.
  intros Hall Hdoc. apply Forall_forall. intros x Hx.
  apply In_replace in Hx as [Hx| ->]; [|assumption].
  now apply (proj1 (Forall_forall P coll) Hall).
Qed.

Lemma updateOne_Forall (P : Payroll.t -> Prop) (doc : Payroll.t)
    (coll coll' : Collection) :
  Forall P coll -> P doc -> updateOne doc coll = inr coll' -> Forall P coll'.
Proof.
  intros Hall Hdoc. unfold updateOne.
  destruct (existsb _ coll); [discriminate|].
  intros H. injection H as <-. now apply replace_Forall.
Qed.

Lemma assign_schemaValid (a : Assign) (d : Payroll.t) :
  validateUpdate [a] = [] -> schemaValid d -> schemaValid (assign d a).
Proof.
  rewrite !schemaValid_iff. destruct a as [p v| | |]; cbn [assign]; auto.
  cbn [validateUpdate flat_map]. rewrite app_nil_r. intros Hv Hd.
  destruct (Path_eq_dec p month) as [->|Hne].
  - rewrite num_set_same. now apply validatePath_month.
  - rewrite num_set_other; auto.
Qed.

Lemma update_schemaValid (body : list Assign) (d : Payroll.t) :
  validateUpdate body = [] -> schemaValid d ->
  schemaValid (fold_left assign body d).
Proof.
  revert d. induction body as [|a body IH]; intros d Hv Hd; [exact Hd|].
  cbn [fold_left]. unfold validateUpdate in Hv. cbn [flat_map] in Hv.
  apply app_eq_nil in Hv as [Ha Hb].
  apply IH; [exact Hb|]. apply assign_schemaValid; [|exact Hd].
  cbn [validateUpdate flat_map]. now rewrite app_nil_r.
Qed.

Lemma create_schemaValid (obj : Obj.t) (now : Z) (coll : Collection) :
  Forall schemaValid coll -> Forall schemaValid (fst (create obj now coll)).
Proof.
  intros Hall. destruct (create_cases obj now coll)
    as [[e ->]|(doc & coll' & Hc & Hv & Hd & Hi)]; [exact Hall|].
  rewrite Hc. cbn [fst]. apply insertOne_inr in Hi as (-> & _).
  apply Forall_app. split; [exact Hall|]. constructor; [|constructor].
  apply schemaValid_iff.
  pose proof (create_num obj now coll _ doc month Hc) as Hm.
  specialize (Hm ltac:(discriminate) ltac:(discriminate)
                 ltac:(discriminate) ltac:(discriminate)).
  apply validatePath_month. rewrite <- Hm.
  unfold validate in Hv. cbn [allPaths flat_map] in Hv.
  now apply app_eq_nil in Hv as [Hv _].
Qed.

Lemma save_schemaValid (doc : Payroll.t) (coll : Collection) :
  Forall schemaValid coll -> Forall schemaValid (fst (save doc coll)).
Proof.
  intros Hall. unfold save.
  destruct (validate (fun p => Some doc.[p])) eqn:Hv; [|exact Hall].
  destruct (updateOne (preSave doc) coll) as [e|coll'] eqn:U; [exact Hall|].
  cbn [fst]. apply (updateOne_Forall _ (preSave doc) coll); auto.
Qed.

Lemma updatePayroll_schemaValid (id : ObjectId) (body : list Assign)
    (coll : Collection) :
  Forall schemaValid coll ->
  Forall schemaValid (fst (updatePayroll id body coll)).
Proof.
  intros Hall. unfold updatePayroll, findByIdAndUpdate.
  destruct (findById id coll) as [d|] eqn:Hf; [|exact Hall].
  destruct (validateUpdate body) eqn:Hv; [|exact Hall].
  destruct (updateOne _ coll) as [e|coll'] eqn:U; [exact Hall|].
  cbn [fst]. apply (updateOne_Forall _ _ coll _ Hall) in U; [exact U|].
  apply update_schemaValid; [exact Hv|].
  apply findById_In in Hf as [Hin _].
  now apply (proj1 (Forall_forall _ coll) Hall).
Qed.

Lemma markAsPaid_schemaValid (id : ObjectId) (txn : option string) (now : Z)
    (coll : Collection) :
  Forall schemaValid coll ->
  Forall schemaValid (fst (payrollController.markAsPaid id txn now coll)).
Proof.
  intros Hall. unfold payrollController.markAsPaid.
  destruct (findById id coll) as [d|]; [|exact Hall].
  unfold Model.markAsPaid.
  pose proof (save_schemaValid (setPayment Paid (Some now) txn d) coll Hall)
    as H.
  destruct (save _ coll) as [coll' [e|r]]; exact H.
Qed.

(* ------------------------------------------------------------------ *)
(** ** The claims of the specification                                  *)
(* ------------------------------------------------------------------ *)

(** C1 (the code departs from the claim).  The claim: every persisted
    record has totalEarnings, totalDeductions and totalReimbursements equal
    to the sums of their components and netSalary = max(0, totalEarnings -
    totalDeductions + totalReimbursements), the totals being recomputed
    before every write and never taken from the caller.  The [pre('save')]
    function does establish this on [create] and [save]
    ([preSave_totalsConsistent]), but [updatePayroll] writes through
    [findByIdAndUpdate], which runs no [pre('save')] function: on the stored
    record of the example computation, the update [{ totalEarnings: 999 }]
    answers 200 and persists totalEarnings = 999 while the earnings
    components still sum to 3700. *)
Theorem update_persists_caller_supplied_total :
  totalsConsistent (Sample.record 1 101 Pending) /\
  exists d,
    updatePayroll 1 [SetNum totalEarnings 999] [Sample.record 1 101 Pending]
      = ([d], Status200 (Some d)) /\
    d.[totalEarnings] = 999 /\ sumEarnings d = 3700 /\
    ~ totalsConsistent d.
Proof.
  split; [repeat split|].
  eexists. split; [reflexivity|]. repeat split.
  intros (H & _). cbn in H. discriminate H.
Qed.

(** C2 (the code departs from the claim).  The claim: [update] recomputes
    totalEarnings, totalDeductions, totalReimbursements and netSalary from
    the updated components before it persists the record, and answers
    NotFound for an unknown id, changing nothing.  The NotFound half holds;
    the recomputation does not happen: on the stored record of the example
    computation, the update [{ 'earnings.bonuses': 500 }] persists bonuses =
    500 with totalEarnings still 3700 and netSalary still 3200, where the
    components now give 4200 and 3700. *)
Theorem update_does_not_recompute_totals :
  (forall id body coll,
     findById id coll = None ->
     updatePayroll id body coll = (coll, Status404 RecordNotFound)) /\
  exists d,
    updatePayroll 1 [SetNum earnings_bonuses 500] [Sample.record 1 101 Pending]
      = ([d], Status200 (Some d)) /\
    d.[earnings_bonuses] = 500 /\
    sumEarnings d = 4200 /\ d.[totalEarnings] = 3700 /\
    Z.max 0 (sumEarnings d - sumDeductions d + sumReimbursements d) = 3700 /\
    d.[netSalary] = 3200 /\
    (preSave d).[totalEarnings] = 4200 /\ (preSave d).[netSalary] = 3700.
Proof.
  split.
  - intros id body coll H. unfold updatePayroll. now rewrite H.
  - eexists. split; [reflexivity|]. repeat split.
Qed.

(** C3.  In every collection that writes through the storage layer and the
    operations of the controller can produce, at most one record exists for
    an (employee, month, year) triple; the storage layer itself rejects the
    insertion of a second document for a stored triple, and so a second
    [create] for that triple fails and leaves the collection unchanged (with
    the duplicate-key error of the store when the object passes
    validation). *)
Theorem unique_record_per_employee_period (coll : Collection) :
  reachable coll ->
  (forall d1 d2, In d1 coll -> In d2 coll ->
     employee d1 = employee d2 -> d1.[month] = d2.[month] ->
     d1.[year] = d2.[year] -> d1 = d2) /\
  (forall doc d, In d coll ->
     employee d = employee doc -> d.[month] = doc.[month] ->
     d.[year] = doc.[year] ->
     insertOne doc coll = inl DuplicateKey) /\
  (forall obj now d, In d coll ->
     employee d = Obj.employee obj ->
     construct obj month = Some d.[month] ->
     construct obj year = Some d.[year] ->
     exists e, create obj now coll = (coll, inl e) /\
               (validate (construct obj) = [] -> e = DuplicateKey)).
Proof.
  intros Hreach. pose proof (reachable_indexesHold coll Hreach) as [Hid Hkey].
  split; [|split].
  - intros d1 d2 H1 H2 He Hm Hy.
    apply (NoDup_map_In_inj indexKey coll); auto. now apply indexKey_eq.
  - intros doc d Hin He Hm Hy.
    apply (insertOne_duplicate doc d); auto. now apply indexKey_eq.
  - intros obj now d Hin He Hm Hy. unfold create.
    destruct (validate (construct obj)) as [|v errs] eqn:Hv.
    + rewrite (insertOne_duplicate _ d); auto.
      * eexists. split; [reflexivity|auto].
      * rewrite preSave_indexKey. unfold indexKey. cbn.
        rewrite Hm, Hy, He. reflexivity.
    + eexists. split; [reflexivity|]. discriminate.
Qed.

Lemma unique_record_per_employee_period_witness :
  reachable [Sample.record 1 101 Pending] /\
  insertOne (Sample.record 2 101 Paid) [Sample.record 1 101 Pending]
    = inl DuplicateKey.
Proof.
  assert (H : reachable [Sample.record 1 101 Pending])
    by (apply (reach_insertOne (Sample.record 1 101 Pending) []);
        [apply reach_empty|reflexivity]).
  split; [exact H|].
  apply (proj1 (proj2 (unique_record_per_employee_period _ H))
           (Sample.record 2 101 Paid) (Sample.record 1 101 Pending));
    [now left|reflexivity|reflexivity|reflexivity].
Defined.

(** C4.  When a record exists for (month, year), for any employee,
    [process] for that period answers with the conflict ("already
    processed") and leaves the collection unchanged; this holds for the
    collection any earlier call left, so a second [process] of a period
    is rejected once a record of the period exists.  The period is one that
    passes the check of the request (month and year present and not 0),
    which comes first. *)
Theorem process_rejects_processed_period (m y : Z) (u : ObjectId) (now : Z)
    (employees : list Employee.t) (coll : Collection) (d : Payroll.t) :
  m <> 0 -> y <> 0 ->
  In d coll -> d.[month] = m -> d.[year] = y ->
  processPayroll (Some m) (Some y) u now employees coll
  = (coll, Status400 (AlreadyProcessed m y)).
Proof.
  intros Hm Hy Hin Hdm Hdy. unfold processPayroll, truthy.
  apply Z.eqb_neq in Hm, Hy. rewrite Hm, Hy.
  destruct (findOne_some m y coll d Hin Hdm Hdy) as [d' ->]. reflexivity.
Qed.

Lemma process_rejects_processed_period_witness :
  In (Sample.record 1 101 Pending)
     (fst (processPayroll (Some 3) (Some 2024) 7 0 Sample.tenEmployees
             [Sample.record 1 101 Pending])) /\
  processPayroll (Some 3) (Some 2024) 7 5 Sample.tenEmployees
    (fst (processPayroll (Some 3) (Some 2024) 7 0 Sample.tenEmployees
            [Sample.record 1 101 Pending]))
  = (fst (processPayroll (Some 3) (Some 2024) 7 0 Sample.tenEmployees
            [Sample.record 1 101 Pending]),
     Status400 (AlreadyProcessed 3 2024)).
Proof.
  split; [now left|].
  apply (process_rejects_processed_period 3 2024 7 5 Sample.tenEmployees
           _ (Sample.record 1 101 Pending));
    [discriminate|discriminate|now left|reflexivity|reflexivity].
Defined.

(** C5 as stated fails: a month outside 1..12 and a negative year are not
    rejected.  [processPayroll] answers 201 with a summary for month 13
    (the one employee is in [errors]) and for year -5. *)
Lemma process_accepts_month_13_and_negative_year :
  ~ (1 <= 13 <= 12) /\ ~ (0 < -5) /\
  (exists summary,
     processPayroll (Some 13) (Some 2024) 7 0
       [Sample.worker 101 "EMP00001" (Some 3000)] []
     = ([], Status201 summary) /\
     processed summary = 0%nat /\ failed summary = 1%nat /\
     map fst (errors summary) = ["EMP00001"%string]) /\
  (exists summary,
     processPayroll (Some 3) (Some (-5)) 7 0
       [Sample.worker 101 "EMP00001" (Some 3000)] []
     = ([], Status201 summary)).
Proof.
  split; [lia|]. split; [lia|]. split.
  - eexists. split; [reflexivity|]. repeat split.
  - eexists. reflexivity.
Qed.

(** C5, as the code has it.  [process] rejects the call with the 400
    answer 'Please provide month and year', and leaves the collection
    unchanged, exactly when month or year is absent or 0; every other month
    and year passes this check. *)
Theorem process_rejects_missing_month_or_year (month year : option Z)
    (u : ObjectId) (now : Z) (employees : list Employee.t)
    (coll : Collection) :
  (month = None \/ month = Some 0 \/ year = None \/ year = Some 0) <->
  processPayroll month year u now employees coll
  = (coll, Status400 ProvideMonthYear).
Proof.
  unfold processPayroll, truthy. split.
  - intros [-> | [-> | [-> | ->]]]; try reflexivity;
      destruct month as [m|]; try reflexivity;
      destruct (m =? 0); reflexivity.
  - destruct month as [m|]; [|auto].
    destruct (Z.eqb_spec m 0) as [->|Hm]; [auto|].
    destruct year as [y|]; [|auto].
    destruct (Z.eqb_spec y 0) as [->|Hy]; [auto|].
    destruct (findOne m y coll); [discriminate|].
    rewrite processPayroll_loop. discriminate.
Qed.

(** C6 as stated fails: the equation grossSalary = basicSalary + hra +
    allowances does not hold after every mutation.  On the stored record of
    the example computation the update [{ 'earnings.basicSalary': 5000 }]
    is persisted with grossSalary still 3700. *)
Lemma update_breaks_grossSalary :
  grossConsistent (Sample.record 1 101 Pending) /\
  exists d,
    updatePayroll 1 [SetNum earnings_basicSalary 5000]
      [Sample.record 1 101 Pending]
      = ([d], Status200 (Some d)) /\
    d.[grossSalary] = 3700 /\
    d.[earnings_basicSalary] + d.[earnings_hra] + d.[earnings_allowances]
      = 5700 /\
    ~ grossConsistent d.
Proof.
  split; [reflexivity|].
  eexists. split; [reflexivity|]. repeat split.
  intros H. unfold grossConsistent in H. cbn in H. discriminate H.
Qed.

(** C6, as the code has it.  The document [process] builds for an
    employee has grossSalary = basicSalary + hra + allowances, all taken
    from the employee's salary configuration; the [pre('save')] function
    leaves grossSalary and these three components as they are, so that a
    record that satisfies the equation keeps it through [save], and through
    [markPaid] in particular.  Nothing recomputes grossSalary. *)
Theorem grossSalary_is_a_snapshot :
  (forall e m y u,
     let values := construct (payrollData e m y u) in
     values grossSalary = Employee.grossSalary e /\
     values grossSalary
     = Employee.plus (Employee.plus (values earnings_basicSalary)
                                    (values earnings_hra))
                     (values earnings_allowances)) /\
  (forall d,
     (preSave d).[grossSalary] = d.[grossSalary] /\
     (preSave d).[earnings_basicSalary] = d.[earnings_basicSalary] /\
     (preSave d).[earnings_hra] = d.[earnings_hra] /\
     (preSave d).[earnings_allowances] = d.[earnings_allowances]) /\
  (forall id txn now coll d,
     indexesHold coll -> findById id coll = Some d -> schemaValid d ->
     grossConsistent d ->
     exists d',
       payrollController.markAsPaid id txn now coll
         = (replace d' coll, Status200 d') /\
       findById id (replace d' coll) = Some d' /\
       grossConsistent d').
Proof.
  split; [|split].
  - intros e m y u values. subst values. unfold construct. cbn.
    unfold Employee.grossSalary.
    destruct (Employee.basic (Employee.salary e)); cbn; split; reflexivity.
  - intros d. repeat split.
  - intros id txn now coll d Hidx Hfind Hvalid Hgross.
    destruct (markAsPaid_stored id txn now coll d Hidx Hfind Hvalid)
      as [H1 H2].
    eexists. split; [exact H1|]. split; [exact H2|].
    apply preSave_grossConsistent. exact Hgross.
Qed.

Lemma grossSalary_is_a_snapshot_witness :
  indexesHold [Sample.record 1 101 Pending] /\
  schemaValid (Sample.record 1 101 Pending) /\
  grossConsistent (Sample.record 1 101 Pending) /\
  exists d',
    payrollController.markAsPaid 1 (Some "TXN123"%string) 2000
      [Sample.record 1 101 Pending]
      = (replace d' [Sample.record 1 101 Pending], Status200 d') /\
    findById 1 (replace d' [Sample.record 1 101 Pending]) = Some d' /\
    grossConsistent d'.
Proof.
  assert (Hidx : indexesHold [Sample.record 1 101 Pending])
    by (split; repeat constructor; cbn; tauto).
  split; [exact Hidx|]. split; [reflexivity|]. split; [reflexivity|].
  apply (proj2 (proj2 grossSalary_is_a_snapshot)
           1 (Some "TXN123"%string) 2000 _ (Sample.record 1 101 Pending));
    [exact Hidx|reflexivity|reflexivity|reflexivity].
Defined.

(** C7 (the code departs from the claim).  The claim: a failure on one
    employee is caught, recorded under that employee's identifier, and does
    not stop the others; with 10 active employees of which exactly one has
    an invalid salary configuration, [process] returns processedCount = 9
    and failedCount = 1.  The loop does catch and record each failure under
    [employee.employeeId] and goes on ([processPayroll_loop]), but no
    [Payroll.create] of the loop succeeds: the object it is given has no
    totalEarnings, totalDeductions or netSalary, these paths are required,
    and validation precedes the [pre('save')] function that would compute
    them.  With the ten employees of the example the answer is 201 with
    processed = 0 and failed = 10, all ten identifiers in [errors], and
    nothing created. *)
Theorem process_ten_employees_creates_none :
  exists summary,
    processPayroll (Some 3) (Some 2024) 7 0 Sample.tenEmployees []
      = ([], Status201 summary) /\
    processed summary = 0%nat /\ failed summary = 10%nat /\
    map fst (errors summary)
      = map Employee.employeeId Sample.tenEmployees /\
    In ("EMP00004"%string,
        ValidationError
          [Required earnings_basicSalary; Required grossSalary;
           Required totalEarnings; Required totalDeductions;
           Required netSalary]) (errors summary) /\
    In ("EMP00001"%string,
        ValidationError
          [Required totalEarnings; Required totalDeductions;
           Required netSalary]) (errors summary).
Proof.
  eexists. split; [reflexivity|]. repeat split; cbn; tauto.
Qed.

(** C8.  [statsForPeriod(month, year)] returns the sums of grossSalary,
    totalEarnings, totalDeductions and netSalary, and the count, over
    exactly the records of that month and year whose paymentStatus is not
    Failed; over no record this is the zero aggregate; and for a period with
    one Failed and one Paid record of netSalary 1000 each it gives
    totalNet = 1000 and count = 1. *)
Theorem getTotalPayroll_sums_the_period (m y : Z) (coll : Collection) :
  getTotalPayroll m y coll
  = aggregateOf
      (filter (fun d => (d.[month] =? m) && (d.[year] =? y)
                        && negb (isFailed (paymentStatus d))) coll) /\
  aggregateOf []
  = {| Totals.totalGross := 0; Totals.totalEarnings := 0;
       Totals.totalDeductions := 0; Totals.totalNet := 0;
       Totals.count := 0 |} /\
  getTotalPayroll m y [] = aggregateOf [] /\
  Totals.totalNet
    (getTotalPayroll 3 2024
       [set netSalary 1000 (Sample.record 1 101 Failed);
        set netSalary 1000 (Sample.record 2 102 Paid)]) = 1000 /\
  Totals.count
    (getTotalPayroll 3 2024
       [set netSalary 1000 (Sample.record 1 101 Failed);
        set netSalary 1000 (Sample.record 2 102 Paid)]) = 1.
Proof.
  split; [|repeat split].
  unfold getTotalPayroll.
  rewrite (filter_ext (matchStage m y)
             (fun d => (d.[month] =? m) && (d.[year] =? y)
                       && negb (isFailed (paymentStatus d)))).
  - destruct (filter _ coll) as [|d rest]; [reflexivity|].
    unfold groupStage, aggregateOf. now rewrite sum_count.
  - intros d. unfold matchStage. now destruct (paymentStatus d).
Qed.

(** C9.  For a stored record and any transaction id t, [markPaid] answers
    200 and the stored record then has paymentStatus = Paid, paymentDate =
    the current time (so not null) and transactionId = t, whatever its
    payment and approval state was before; a second call with another
    transaction id overwrites transactionId and paymentDate; for an unknown
    record id the answer is NotFound and the collection is unchanged.  The
    stored record is one that satisfies the schema (month in 1..12), in a
    collection whose unique indexes hold. *)
Theorem markAsPaid_sets_payment (id : ObjectId) (t : string) (now : Z)
    (coll : Collection) :
  indexesHold coll ->
  (findById id coll = None ->
   forall txn,
     payrollController.markAsPaid id txn now coll
     = (coll, Status404 RecordNotFound)) /\
  (forall d,
     findById id coll = Some d -> 1 <= d.[month] <= 12 ->
     exists d' coll',
       payrollController.markAsPaid id (Some t) now coll
         = (coll', Status200 d') /\
       findById id coll' = Some d' /\
       paymentStatus d' = Paid /\
       paymentDate d' = Some now /\
       transactionId d' = Some t /\
       approvalStatus d' = approvalStatus d /\
       forall t2 now2,
         exists d'' coll'',
           payrollController.markAsPaid id (Some t2) now2 coll'
             = (coll'', Status200 d'') /\
           findById id coll'' = Some d'' /\
           paymentStatus d'' = Paid /\
           paymentDate d'' = Some now2 /\
           transactionId d'' = Some t2).
Proof.
  intros Hidx. split.
  - intros Hnone txn. unfold payrollController.markAsPaid. now rewrite Hnone.
  - intros d Hfind Hmonth.
    assert (Hvalid : schemaValid d) by (now apply schemaValid_iff).
    destruct (markAsPaid_stored id (Some t) now coll d Hidx Hfind Hvalid)
      as [H1 H2].
    eexists _, _. split; [exact H1|]. split; [exact H2|].
    repeat split.
    intros t2 now2.
    assert (Hidx' : indexesHold
                      (replace (preSave (setPayment Paid (Some now) (Some t) d))
                               coll)).
    { pose proof (markAsPaid_indexesHold id (Some t) now coll Hidx) as H.
      now rewrite H1 in H. }
    assert (Hvalid' : schemaValid
                        (preSave (setPayment Paid (Some now) (Some t) d)))
      by (apply schemaValid_iff; exact Hmonth).
    destruct (markAsPaid_stored id (Some t2) now2 _ _ Hidx' H2 Hvalid')
      as [H3 H4].
    eexists _, _. split; [exact H3|]. split; [exact H4|]. repeat split.
Qed.

Lemma markAsPaid_sets_payment_witness :
  indexesHold [Sample.record 1 101 Pending] /\
  findById 1 [Sample.record 1 101 Pending]
    = Some (Sample.record 1 101 Pending) /\
  1 <= (Sample.record 1 101 Pending).[month] <= 12 /\
  exists d' coll',
    payrollController.markAsPaid 1 (Some "TXN123"%string) 2000
      [Sample.record 1 101 Pending]
      = (coll', Status200 d') /\
    findById 1 coll' = Some d' /\
    paymentStatus d' = Paid /\
    paymentDate d' = Some 2000 /\
    transactionId d' = Some "TXN123"%string.
Proof.
  assert (Hidx : indexesHold [Sample.record 1 101 Pending])
    by (split; repeat constructor; cbn; tauto).
  split; [exact Hidx|]. split; [reflexivity|]. split; [cbn; lia|].
  destruct (proj2 (markAsPaid_sets_payment 1 "TXN123"%string 2000 _ Hidx)
              (Sample.record 1 101 Pending) eq_refl)
    as (d' & coll' & H1 & H2 & H3 & H4 & H5 & _); [cbn; lia|].
  exists d', coll'. repeat split; assumption.
Defined.

(** C10.  The record [process] builds has workingDays = 30 and
    daysPresent = 30 for every employee, month and year (and [create] keeps
    the numbers it is given, [create_num]); the period end it carries is the
    last calendar day of the month, so for February the record has 30
    working days over a period of 28 or 29 days. *)
Theorem attendance_is_a_fixed_30_days (e : Employee.t) (m y : Z)
    (u : ObjectId) :
  1 <= m <= 12 ->
  construct (payrollData e m y u) workingDays = Some 30 /\
  construct (payrollData e m y u) daysPresent = Some 30 /\
  Obj.payPeriodEnd (payrollData e m y u)
  = JsDate.mk (JsDate.toFullYear y) (m - 1)
              (JsDate.daysInMonth (JsDate.toFullYear y) (m - 1)) /\
  (m = 2 -> 28 <= JsDate.date (Obj.payPeriodEnd (payrollData e m y u)) <= 29).
Proof.
  intros Hm.
  assert (Hend : Obj.payPeriodEnd (payrollData e m y u)
                 = JsDate.mk (JsDate.toFullYear y) (m - 1)
                     (JsDate.daysInMonth (JsDate.toFullYear y) (m - 1)))
    by (cbn; now apply make_day0).
  split; [reflexivity|]. split; [reflexivity|]. split; [exact Hend|].
  intros ->. rewrite Hend. cbn.
  destruct (JsDate.isLeap (JsDate.toFullYear y)); lia.
Qed.

Lemma attendance_is_a_fixed_30_days_witness :
  1 <= 2 <= 12 /\
  construct (payrollData (Sample.worker 101 "EMP00001" (Some 3000)) 2 2024 7)
    workingDays = Some 30 /\
  Obj.payPeriodEnd
    (payrollData (Sample.worker 101 "EMP00001" (Some 3000)) 2 2024 7)
  = JsDate.mk 2024 1 29.
Proof.
  split; [lia|].
  destruct (attendance_is_a_fixed_30_days
              (Sample.worker 101 "EMP00001" (Some 3000)) 2 2024 7)
    as (H1 & _ & H3 & _); [lia|].
  split; [exact H1|exact H3].
Defined.
